(** * ensembl_map.features: feature records and the loader factory

    A shallow embedding of [ensembl_map/features.py].  Python values are a
    small dynamically typed universe, instances are a class name together
    with their ordered attribute dictionary, and every operation that can
    raise returns in an error monad. *)

From Stdlib Require Import String Ascii ZArith List Lia Bool DecimalString.
Import ListNotations.
Open Scope string_scope.
Open Scope Z_scope.

(** ** Values, exceptions and the error monad *)

(** The values that reach this module: [None], integers (unbounded, as in
    Python) and strings. *)
Inductive pyval : Type :=
| VNone
| VInt (z : Z)
| VStr (s : string).

(** Exceptions.  [AttributeError] and [KeyError] record the name that was
    looked up; [TypeError] carries its message (for the errors the
    interpreter raises itself the text is abbreviated). *)
Inductive exn : Type :=
| AttributeError (attr : string)
| KeyError (key : string)
| TypeError (msg : string).

Inductive result (A : Type) : Type :=
| Ok (a : A)
| Raise (e : exn).

Arguments Ok {A} a.
Arguments Raise {A} e.

Definition bind {A B : Type} (m : result A) (k : A -> result B) : result B :=
  match m with
  | Ok a => k a
  | Raise e => Raise e
  end.

Notation "x <- m ;; k" := (bind m (fun x => k))
  (at level 61, m at next level, right associativity).

(** ** Built-in operations *)

(** [str(v)], which is also what an f-string placeholder renders. *)
Definition py_str (v : pyval) : string :=
  match v with
  | VNone => "None"
  | VInt z => NilZero.string_of_int (Z.to_int z)
  | VStr s => s
  end.

(** [type(v).__name__], used in interpreter messages. *)
Definition type_name (v : pyval) : string :=
  match v with
  | VNone => "NoneType"
  | VInt _ => "int"
  | VStr _ => "str"
  end.

(** [a == b] for the values above. *)
Definition py_eq (a b : pyval) : bool :=
  match a, b with
  | VNone, VNone => true
  | VInt x, VInt y => Z.eqb x y
  | VStr x, VStr y => String.eqb x y
  | _, _ => false
  end.

(** [a - b]. *)
Definition py_sub (a b : pyval) : result pyval :=
  match a, b with
  | VInt x, VInt y => Ok (VInt (x - y))
  | _, _ =>
      Raise (TypeError ("unsupported operand type(s) for -: '" ++ type_name a
                        ++ "' and '" ++ type_name b ++ "'"))
  end.

(** [len(v)]. *)
Definition py_len (v : pyval) : result Z :=
  match v with
  | VStr s => Ok (Z.of_nat (String.length s))
  | _ => Raise (TypeError ("object of type '" ++ type_name v ++ "' has no len()"))
  end.

(** A slice bound is an integer or [None]. *)
Definition slice_bound (v : pyval) : result (option Z) :=
  match v with
  | VNone => Ok None
  | VInt z => Ok (Some z)
  | VStr _ =>
      Raise (TypeError
               "slice indices must be integers or None or have an __index__ method")
  end.

(** Adjustment of one slice bound against a sequence of length [len] (step
    one): a negative bound counts from the end, and every bound is clamped
    to [0 .. len]. *)
Definition adjust_index (len i : Z) : Z :=
  if i <? 0 then Z.max (i + len) 0 else Z.min i len.

(** [q[lo:hi]] on a string. *)
Definition str_slice (q : string) (lo hi : option Z) : string :=
  let len := Z.of_nat (String.length q) in
  let lo' := match lo with None => 0 | Some i => adjust_index len i end in
  let hi' := match hi with None => len | Some i => adjust_index len i end in
  substring (Z.to_nat lo') (Z.to_nat (hi' - lo')) q.

(** [v[lo:hi]]. *)
Definition py_getslice (v lo hi : pyval) : result pyval :=
  match v with
  | VStr q =>
      l <- slice_bound lo ;;
      h <- slice_bound hi ;;
      Ok (VStr (str_slice q l h))
  | _ => Raise (TypeError ("'" ++ type_name v ++ "' object is not subscriptable"))
  end.

(** ** Instances *)

(** An instance: the name of its class and its attribute dictionary, kept
    in insertion order. *)
Record pyobj : Type := mkobj {
  __name__ : string;
  __dict__ : list (string * pyval)
}.

Fixpoint dict_get (d : list (string * pyval)) (k : string) : option pyval :=
  match d with
  | [] => None
  | (k', v) :: d' => if String.eqb k' k then Some v else dict_get d' k
  end.

(** [d[k] = v]: an existing key keeps its position, a new key goes last. *)
Fixpoint dict_set (d : list (string * pyval)) (k : string) (v : pyval)
  : list (string * pyval) :=
  match d with
  | [] => [(k, v)]
  | (k', v') :: d' =>
      if String.eqb k' k then (k', v) :: d' else (k', v') :: dict_set d' k v
  end.

Definition keys (d : list (string * pyval)) : list string := map fst d.

(** [o.name]. *)
Definition getattr (o : pyobj) (name : string) : result pyval :=
  match dict_get (__dict__ o) name with
  | Some v => Ok v
  | None => Raise (AttributeError name)
  end.

(** [o.name = v]. *)
Definition setattr (o : pyobj) (name : string) (v : pyval) : pyobj :=
  mkobj (__name__ o) (dict_set (__dict__ o) name v).

(** A fresh instance of a class, before [__init__] runs. *)
Definition new (cls : string) : pyobj := mkobj cls [].

(** [d[k]]. *)
Definition dict_item (d : list (string * pyval)) (k : string) : result pyval :=
  match dict_get d k with
  | Some v => Ok v
  | None => Raise (KeyError k)
  end.

(** ** class FeatureBase *)

Module FeatureBase.

(** Only print the first N bases of a sequence. *)
Definition _seqlim : Z := 3.

(** One turn of the loop of [__repr__]: the text appended for key [i]. *)
Definition rarg (self : pyobj) (i : string) : result string :=
  if String.eqb i "seq" then
    v <- dict_item (__dict__ self) i ;;
    n <- py_len v ;;
    if n >? _seqlim then
      v <- dict_item (__dict__ self) i ;;
      w <- py_getslice v VNone (VInt _seqlim) ;;
      Ok (i ++ "=" ++ py_str w ++ "...")
    else
      v <- dict_item (__dict__ self) i ;;
      Ok (i ++ "=" ++ py_str v)
  else
    v <- dict_item (__dict__ self) i ;;
    Ok (i ++ "=" ++ py_str v).

(** The loop over [self.__dict__.keys()], [rargs] being the list built so
    far. *)
Fixpoint rargs_loop (self : pyobj) (ks : list string) (rargs : list string)
  : result (list string) :=
  match ks with
  | [] => Ok rargs
  | i :: ks' => a <- rarg self i ;; rargs_loop self ks' (rargs ++ [a])
  end.

Definition __repr__ (self : pyobj) : result string :=
  rargs <- rargs_loop self (keys (__dict__ self)) [] ;;
  Ok (__name__ self ++ "(" ++ String.concat ", " rargs ++ ")").

End FeatureBase.

(** ** class CDS(FeatureBase) *)

Module CDS.

Definition __init__ (self : pyobj)
  (contig start end_ strand biotype transcript_id transcript_name seq : pyval)
  : pyobj :=
  let self := setattr self "contig" contig in
  let self := setattr self "start" start in
  let self := setattr self "end" end_ in
  let self := setattr self "strand" strand in
  let self := setattr self "biotype" biotype in
  let self := setattr self "transcript_id" transcript_id in
  let self := setattr self "transcript_name" transcript_name in
  let self := setattr self "seq" seq in
  self.

(** The call [cls(...)] with [cls] bound to this class. *)
Definition cls := __init__ (new "CDS").

Definition load (tobj : pyobj) (start end_ : pyval) : result pyobj :=
  a1 <- getattr tobj "contig" ;;
  a4 <- getattr tobj "strand" ;;
  a5 <- getattr tobj "biotype" ;;
  a6 <- getattr tobj "transcript_id" ;;
  a7 <- getattr tobj "transcript_name" ;;
  q <- getattr tobj "coding_sequence" ;;
  lo <- py_sub start (VInt 1) ;;
  a8 <- py_getslice q lo end_ ;;
  Ok (cls a1 start end_ a4 a5 a6 a7 a8).

Definition to_tuple (self : pyobj) : result (pyval * pyval * pyval) :=
  a <- getattr self "transcript_id" ;;
  b <- getattr self "start" ;;
  c <- getattr self "end" ;;
  Ok (a, b, c).

End CDS.

(** ** class Exon(FeatureBase) *)

Module Exon.

Definition __init__ (self : pyobj)
  (contig start end_ strand biotype exon_id transcript_id transcript_name
     index seq : pyval) : pyobj :=
  let self := setattr self "contig" contig in
  let self := setattr self "start" start in
  let self := setattr self "end" end_ in
  let self := setattr self "strand" strand in
  let self := setattr self "biotype" biotype in
  let self := setattr self "exon_id" exon_id in
  let self := setattr self "transcript_id" transcript_id in
  let self := setattr self "transcript_name" transcript_name in
  let self := setattr self "index" index in
  let self := setattr self "seq" seq in
  self.

Definition cls := __init__ (new "Exon").

(** The parameter [biotype] is accepted and not read: the fifth argument
    of the constructor is [tobj.biotype]. *)
Definition load (tobj : pyobj) (start end_ biotype exon_id index : pyval)
  : result pyobj :=
  a1 <- getattr tobj "contig" ;;
  a4 <- getattr tobj "strand" ;;
  a5 <- getattr tobj "biotype" ;;
  a7 <- getattr tobj "transcript_id" ;;
  a8 <- getattr tobj "transcript_name" ;;
  q <- getattr tobj "sequence" ;;
  lo <- py_sub start (VInt 1) ;;
  a10 <- py_getslice q lo end_ ;;
  Ok (cls a1 start end_ a4 a5 exon_id a7 a8 index a10).

Definition to_tuple (self : pyobj) : result (pyval * pyval * pyval) :=
  a <- getattr self "exon_id" ;;
  b <- getattr self "start" ;;
  c <- getattr self "end" ;;
  Ok (a, b, c).

End Exon.

(** ** class Gene(FeatureBase) *)

Module Gene.

Definition __init__ (self : pyobj)
  (contig start end_ strand biotype gene_id gene_name : pyval) : pyobj :=
  let self := setattr self "contig" contig in
  let self := setattr self "start" start in
  let self := setattr self "end" end_ in
  let self := setattr self "strand" strand in
  let self := setattr self "biotype" biotype in
  let self := setattr self "gene_id" gene_id in
  let self := setattr self "gene_name" gene_name in
  self.

Definition cls := __init__ (new "Gene").

Definition load (tobj : pyobj) (start end_ : pyval) : result pyobj :=
  a1 <- getattr tobj "contig" ;;
  a4 <- getattr tobj "strand" ;;
  a5 <- getattr tobj "biotype" ;;
  a6 <- getattr tobj "gene_id" ;;
  a7 <- getattr tobj "gene_name" ;;
  Ok (cls a1 start end_ a4 a5 a6 a7).

Definition to_tuple (self : pyobj) : result (pyval * pyval * pyval) :=
  a <- getattr self "gene_id" ;;
  b <- getattr self "start" ;;
  c <- getattr self "end" ;;
  Ok (a, b, c).

End Gene.

(** ** class Protein

    This class does not derive from [FeatureBase], so it has no [__repr__]
    of the module's own. *)

Module Protein.

Definition __init__ (self : pyobj)
  (contig start end_ strand biotype protein_id seq : pyval) : pyobj :=
  let self := setattr self "contig" contig in
  let self := setattr self "start" start in
  let self := setattr self "end" end_ in
  let self := setattr self "strand" strand in
  let self := setattr self "biotype" biotype in
  let self := setattr self "protein_id" protein_id in
  let self := setattr self "seq" seq in
  self.

Definition cls := __init__ (new "Protein").

Definition load (tobj : pyobj) (start end_ : pyval) : result pyobj :=
  a1 <- getattr tobj "contig" ;;
  a4 <- getattr tobj "strand" ;;
  a5 <- getattr tobj "biotype" ;;
  a6 <- getattr tobj "protein_id" ;;
  q <- getattr tobj "protein_sequence" ;;
  lo <- py_sub start (VInt 1) ;;
  a7 <- py_getslice q lo end_ ;;
  Ok (cls a1 start end_ a4 a5 a6 a7).

Definition to_tuple (self : pyobj) : result (pyval * pyval * pyval) :=
  a <- getattr self "protein_id" ;;
  b <- getattr self "start" ;;
  c <- getattr self "end" ;;
  Ok (a, b, c).

End Protein.

(** ** class Transcript(FeatureBase) *)

Module Transcript.

Definition __init__ (self : pyobj)
  (contig start end_ strand biotype transcript_id transcript_name seq : pyval)
  : pyobj :=
  let self := setattr self "contig" contig in
  let self := setattr self "start" start in
  let self := setattr self "end" end_ in
  let self := setattr self "strand" strand in
  let self := setattr self "biotype" biotype in
  let self := setattr self "transcript_id" transcript_id in
  let self := setattr self "transcript_name" transcript_name in
  let self := setattr self "seq" seq in
  self.

Definition cls := __init__ (new "Transcript").

Definition load (tobj : pyobj) (start end_ : pyval) : result pyobj :=
  a1 <- getattr tobj "contig" ;;
  a4 <- getattr tobj "strand" ;;
  a5 <- getattr tobj "biotype" ;;
  a6 <- getattr tobj "transcript_id" ;;
  a7 <- getattr tobj "transcript_name" ;;
  q <- getattr tobj "sequence" ;;
  lo <- py_sub start (VInt 1) ;;
  a8 <- py_getslice q lo end_ ;;
  Ok (cls a1 start end_ a4 a5 a6 a7 a8).

Definition to_tuple (self : pyobj) : result (pyval * pyval * pyval) :=
  a <- getattr self "transcript_id" ;;
  b <- getattr self "start" ;;
  c <- getattr self "end" ;;
  Ok (a, b, c).

End Transcript.

(** ** get_parse_function *)

(** The five function references the factory can hand out. *)
Inductive callable : Type :=
| CDS_load
| Exon_load
| Gene_load
| Protein_load
| Transcript_load.

Definition get_parse_function (to_type : pyval) : result callable :=
  if py_eq to_type (VStr "cds") then Ok CDS_load
  else if py_eq to_type (VStr "exon") then Ok Exon_load
  else if py_eq to_type (VStr "gene") then Ok Gene_load
  else if py_eq to_type (VStr "protein") then Ok Protein_load
  else if py_eq to_type (VStr "transcript") then Ok Transcript_load
  else Raise (TypeError ("Could not get parse function for " ++ py_str to_type)).

(** Number of positional parameters after [tobj]. *)
Definition arity (f : callable) : nat :=
  match f with
  | Exon_load => 5
  | _ => 2
  end.

(** Calling a reference with a source object and further positional
    arguments: the parameters are bound by position, and a wrong count is
    a [TypeError] before the body runs. *)
Definition call (f : callable) (tobj : pyobj) (args : list pyval)
  : result pyobj :=
  match f, args with
  | CDS_load, [s; e] => CDS.load tobj s e
  | Exon_load, [s; e; b; x; i] => Exon.load tobj s e b x i
  | Gene_load, [s; e] => Gene.load tobj s e
  | Protein_load, [s; e] => Protein.load tobj s e
  | Transcript_load, [s; e] => Transcript.load tobj s e
  | _, _ =>
      Raise (TypeError ("load() expects "
                        ++ py_str (VInt (Z.of_nat (arity f)))
                        ++ " positional arguments after the source object but "
                        ++ py_str (VInt (Z.of_nat (List.length args)))
                        ++ " were given"))
  end.


(** ** The consumed interface *)

(** What a loader reads from its source transcript: eight attributes that
    are stored as they are, and three sequences, which are strings. *)
Record source_transcript : Type := {
  contig : pyval;
  strand : pyval;
  biotype : pyval;
  transcript_id : pyval;
  transcript_name : pyval;
  gene_id : pyval;
  gene_name : pyval;
  protein_id : pyval;
  sequence : string;
  coding_sequence : string;
  protein_sequence : string
}.

(** The object [tobj] exposes the attributes of [t]. *)
Definition exposes (tobj : pyobj) (t : source_transcript) : Prop :=
  getattr tobj "contig" = Ok (contig t) /\
  getattr tobj "strand" = Ok (strand t) /\
  getattr tobj "biotype" = Ok (biotype t) /\
  getattr tobj "transcript_id" = Ok (transcript_id t) /\
  getattr tobj "transcript_name" = Ok (transcript_name t) /\
  getattr tobj "gene_id" = Ok (gene_id t) /\
  getattr tobj "gene_name" = Ok (gene_name t) /\
  getattr tobj "protein_id" = Ok (protein_id t) /\
  getattr tobj "sequence" = Ok (VStr (sequence t)) /\
  getattr tobj "coding_sequence" = Ok (VStr (coding_sequence t)) /\
  getattr tobj "protein_sequence" = Ok (VStr (protein_sequence t)).

(** A sample transcript with the given coding sequence, and the object
    that carries it. *)
Definition sample (cds : string) : source_transcript := {|
  contig := VStr "17";
  strand := VStr "-";
  biotype := VStr "protein_coding";
  transcript_id := VStr "ENST00000269305";
  transcript_name := VStr "TP53-201";
  gene_id := VStr "ENSG00000141510";
  gene_name := VStr "TP53";
  protein_id := VStr "ENSP00000269305";
  sequence := "GGC" ++ cds ++ "TTGA";
  coding_sequence := cds;
  protein_sequence := "MPQW"
|}.

Definition sample_tobj (cds : string) : pyobj :=
  mkobj "Transcript"
    [("transcript_id", transcript_id (sample cds));
     ("transcript_name", transcript_name (sample cds));
     ("contig", contig (sample cds));
     ("strand", strand (sample cds));
     ("biotype", biotype (sample cds));
     ("gene_id", gene_id (sample cds));
     ("gene_name", gene_name (sample cds));
     ("protein_id", protein_id (sample cds));
     ("sequence", VStr (sequence (sample cds)));
     ("coding_sequence", VStr (coding_sequence (sample cds)));
     ("protein_sequence", VStr (protein_sequence (sample cds)))].

(** The five tags the factory knows. *)
Definition known_tags : list string :=
  ["cds"; "exon"; "gene"; "protein"; "transcript"].

(** The coordinates for which a negative [end] reaches back into the
    sequence although [start > end]. *)
Definition reaches_back (len start end_ : Z) : Prop :=
  1 <= start /\ end_ < 0 /\ start - 1 < len + end_.

(** [m.name] for the instance a loader returned. *)
Definition attr_of (m : result pyobj) (name : string) : result pyval :=
  r <- m ;; getattr r name.

(** The 1-based inclusive range [[start, end]] of [q], in the words of the
    specification: [end - start + 1] characters, the first of them the
    [start]-th character of [q]. *)
Definition inclusive_range (q : string) (start end_ : Z) : string :=
  substring (Z.to_nat (start - 1)) (Z.to_nat (end_ - start + 1)) q.

(** What is left of [q] after its first [n] characters. *)
Fixpoint string_drop (n : nat) (q : string) : string :=
  match n, q with
  | O, _ => q
  | S n', String _ q' => string_drop n' q'
  | S _, EmptyString => EmptyString
  end.

(** ** What each loader reads and builds *)

(** The attributes a loader reads from [tobj], in the order in which the
    arguments of its constructor call are evaluated. *)
Definition reads (f : callable) : list string :=
  match f with
  | CDS_load =>
      ["contig"; "strand"; "biotype"; "transcript_id"; "transcript_name";
       "coding_sequence"]
  | Exon_load =>
      ["contig"; "strand"; "biotype"; "transcript_id"; "transcript_name";
       "sequence"]
  | Gene_load => ["contig"; "strand"; "biotype"; "gene_id"; "gene_name"]
  | Protein_load =>
      ["contig"; "strand"; "biotype"; "protein_id"; "protein_sequence"]
  | Transcript_load =>
      ["contig"; "strand"; "biotype"; "transcript_id"; "transcript_name";
       "sequence"]
  end.

(** The attribute a loader slices, if it slices one. *)
Definition sliced (f : callable) : option string :=
  match f with
  | CDS_load => Some "coding_sequence"
  | Exon_load => Some "sequence"
  | Gene_load => None
  | Protein_load => Some "protein_sequence"
  | Transcript_load => Some "sequence"
  end.

(** The class a loader instantiates and the attributes its constructor
    sets, in order. *)
Definition class_of (f : callable) : string :=
  match f with
  | CDS_load => "CDS"
  | Exon_load => "Exon"
  | Gene_load => "Gene"
  | Protein_load => "Protein"
  | Transcript_load => "Transcript"
  end.

Definition fields (f : callable) : list string :=
  match f with
  | CDS_load =>
      ["contig"; "start"; "end"; "strand"; "biotype"; "transcript_id";
       "transcript_name"; "seq"]
  | Exon_load =>
      ["contig"; "start"; "end"; "strand"; "biotype"; "exon_id";
       "transcript_id"; "transcript_name"; "index"; "seq"]
  | Gene_load =>
      ["contig"; "start"; "end"; "strand"; "biotype"; "gene_id"; "gene_name"]
  | Protein_load =>
      ["contig"; "start"; "end"; "strand"; "biotype"; "protein_id"; "seq"]
  | Transcript_load =>
      ["contig"; "start"; "end"; "strand"; "biotype"; "transcript_id";
       "transcript_name"; "seq"]
  end.

(** The first of [names] that [o] does not have. *)
Definition first_missing (o : pyobj) (names : list string) : option string :=
  find (fun k => match dict_get (__dict__ o) k with
                 | None => true
                 | Some _ => false
                 end) names.

(** How the debug string shows the value [v] held under the key [k]. *)
Definition shown (k : string) (v : pyval) : string :=
  k ++ "="
    ++ (if String.eqb k "seq"
        then match v with
             | VStr q =>
                 if 3 <? Z.of_nat (String.length q)
                 then substring 0 3 q ++ "..."
                 else q
             | _ => py_str v
             end
        else py_str v).


(** A transcript object as the annotation gives it when the sequence is
    not known: no gene or protein attributes, and [None] for the
    sequence. *)
Definition bare_tobj : pyobj :=
  mkobj "Transcript"
    [("contig", VStr "17"); ("strand", VStr "+");
     ("biotype", VStr "lncRNA"); ("transcript_id", VStr "ENST00000456328");
     ("transcript_name", VStr "DDX11L1-202"); ("sequence", VNone)].

(** * Verification *)

(** ** Strings and substrings *)

Lemma append_assoc (a b c : string) : (a ++ b) ++ c = a ++ (b ++ c).
Proof.
  induction a as [|x a IH]; simpl; [reflexivity | now rewrite IH].
Qed.

Lemma length_append (a b : string) :
  String.length (a ++ b) = (String.length a + String.length b)%nat.
Proof.
  induction a as [|x a IH]; simpl; [reflexivity | now rewrite IH].
Qed.

Lemma length_zero_empty (q : string) : String.length q = 0%nat <-> q = "".
Proof.
  destruct q; simpl; split; intro H; try reflexivity; discriminate.
Qed.

Lemma substring_length (q : string) :
  forall n m : nat,
    String.length (substring n m q) = Nat.min m (String.length q - n).
Proof.
  induction q as [|c q IH]; intros n m.
  - destruct n, m; reflexivity.
  - destruct n as [|n].
    + destruct m as [|m]; simpl; [reflexivity|].
      rewrite IH, Nat.sub_0_r. reflexivity.
    + simpl. apply IH.
Qed.

Lemma substring_nothing (q : string) (n : nat) : substring n 0 q = "".
Proof.
  apply length_zero_empty. rewrite substring_length. reflexivity.
Qed.

(** Cutting a string at [n] gives back the string. *)
Lemma substring_split (q : string) :
  forall n : nat,
    q = substring 0 n q ++ substring n (String.length q - n) q.
Proof.
  induction q as [|c q IH]; intros n.
  - destruct n; reflexivity.
  - destruct n as [|n]; simpl.
    + f_equal. specialize (IH 0%nat). simpl in IH.
      rewrite substring_nothing in IH. simpl in IH.
      rewrite Nat.sub_0_r in IH. destruct (String.length q); exact IH.
    + f_equal. apply IH.
Qed.

(** ** Slice bounds *)

Lemma adjust_index_inside (len i : Z) :
  0 <= i <= len -> adjust_index len i = i.
Proof.
  intros H. unfold adjust_index.
  destruct (Z.ltb_spec i 0); lia.
Qed.

Lemma adjust_index_beyond (len i : Z) :
  0 <= len -> len < i -> adjust_index len i = len.
Proof.
  intros H0 H. unfold adjust_index.
  destruct (Z.ltb_spec i 0); lia.
Qed.

Lemma adjust_index_range (len i : Z) :
  0 <= len -> 0 <= adjust_index len i <= len.
Proof.
  intros H. unfold adjust_index.
  destruct (Z.ltb_spec i 0); lia.
Qed.

(** A slice is a substring at the adjusted lower bound. *)
Lemma str_slice_length (q : string) (lo hi : Z) :
  Z.of_nat (String.length (str_slice q (Some lo) (Some hi)))
  = Z.max 0 (adjust_index (Z.of_nat (String.length q)) hi
             - adjust_index (Z.of_nat (String.length q)) lo).
Proof.
  unfold str_slice. rewrite substring_length.
  pose proof (adjust_index_range (Z.of_nat (String.length q)) lo
                ltac:(lia)) as Hlo.
  pose proof (adjust_index_range (Z.of_nat (String.length q)) hi
                ltac:(lia)) as Hhi.
  lia.
Qed.

(** An upper bound past the end reads to the end: [q[lo:hi] = q[lo:]]. *)
Lemma str_slice_beyond (q : string) (lo : option Z) (hi : Z) :
  Z.of_nat (String.length q) < hi ->
  str_slice q lo (Some hi) = str_slice q lo None.
Proof.
  intros H. unfold str_slice.
  rewrite adjust_index_beyond by lia. reflexivity.
Qed.

(** [q[lo:]] is a suffix of [q]: what is left after the first
    [adjust_index len lo] characters. *)
Lemma str_slice_suffix (q : string) (lo : Z) :
  q = substring 0 (Z.to_nat (adjust_index (Z.of_nat (String.length q)) lo)) q
      ++ str_slice q (Some lo) None.
Proof.
  unfold str_slice.
  pose proof (adjust_index_range (Z.of_nat (String.length q)) lo
                ltac:(lia)) as Hlo.
  set (k := adjust_index (Z.of_nat (String.length q)) lo) in *.
  replace (Z.to_nat (Z.of_nat (String.length q) - k))
    with (String.length q - Z.to_nat k)%nat by lia.
  apply substring_split.
Qed.

(** In range, [q[start-1:end]] is the substring of [end - start + 1]
    characters that begins after [start - 1] characters. *)
Lemma str_slice_inside (q : string) (s e : Z) :
  1 <= s -> s <= e -> e <= Z.of_nat (String.length q) ->
  str_slice q (Some (s - 1)) (Some e)
  = substring (Z.to_nat (s - 1)) (Z.to_nat (e - s + 1)) q.
Proof.
  intros H1 H2 H3. unfold str_slice.
  rewrite !adjust_index_inside by lia.
  f_equal. lia.
Qed.

(** When is [q[start-1:end]] empty. *)
Lemma str_slice_empty_iff (q : string) (lo hi : Z) :
  str_slice q (Some lo) (Some hi) = ""
  <-> adjust_index (Z.of_nat (String.length q)) hi
      <= adjust_index (Z.of_nat (String.length q)) lo.
Proof.
  rewrite <- length_zero_empty.
  pose proof (str_slice_length q lo hi) as H. lia.
Qed.

(** ** Loading from a source transcript *)

Lemma sample_exposes (cds : string) : exposes (sample_tobj cds) (sample cds).
Proof.
  repeat split.
Qed.

Section Loaders.

Variable tobj : pyobj.
Variable t : source_transcript.
Hypothesis Ht : exposes tobj t.
Variables s e : Z.

Ltac run_load :=
  destruct Ht as (Hc & Hsd & Hb & Hti & Htn & Hgi & Hgn & Hpi & Hq & Hcq & Hpq);
  cbv beta delta [CDS.load Exon.load Gene.load Protein.load Transcript.load];
  repeat match goal with
         | H : getattr tobj _ = Ok _ |- _ => rewrite H; clear H
         end;
  reflexivity.

Lemma CDS_load_ok :
  CDS.load tobj (VInt s) (VInt e)
  = Ok (CDS.cls (contig t) (VInt s) (VInt e) (strand t) (biotype t)
          (transcript_id t) (transcript_name t)
          (VStr (str_slice (coding_sequence t) (Some (s - 1)) (Some e)))).
Proof. run_load. Qed.

Lemma Exon_load_ok (b x i : pyval) :
  Exon.load tobj (VInt s) (VInt e) b x i
  = Ok (Exon.cls (contig t) (VInt s) (VInt e) (strand t) (biotype t) x
          (transcript_id t) (transcript_name t) i
          (VStr (str_slice (sequence t) (Some (s - 1)) (Some e)))).
Proof. run_load. Qed.

Lemma Gene_load_ok :
  Gene.load tobj (VInt s) (VInt e)
  = Ok (Gene.cls (contig t) (VInt s) (VInt e) (strand t) (biotype t)
          (gene_id t) (gene_name t)).
Proof. run_load. Qed.

Lemma Protein_load_ok :
  Protein.load tobj (VInt s) (VInt e)
  = Ok (Protein.cls (contig t) (VInt s) (VInt e) (strand t) (biotype t)
          (protein_id t)
          (VStr (str_slice (protein_sequence t) (Some (s - 1)) (Some e)))).
Proof. run_load. Qed.

Lemma Transcript_load_ok :
  Transcript.load tobj (VInt s) (VInt e)
  = Ok (Transcript.cls (contig t) (VInt s) (VInt e) (strand t) (biotype t)
          (transcript_id t) (transcript_name t)
          (VStr (str_slice (sequence t) (Some (s - 1)) (Some e)))).
Proof. run_load. Qed.

End Loaders.

(** Rewriting with the five lemmas above and evaluating what is left. *)
Ltac loaded H :=
  rewrite ?(CDS_load_ok _ _ H), ?(Exon_load_ok _ _ H), ?(Gene_load_ok _ _ H),
    ?(Protein_load_ok _ _ H), ?(Transcript_load_ok _ _ H);
  cbv beta delta [attr_of]; cbn [bind].

(** ** Identity tuples *)

(** C4: for every variant, [load(...).to_tuple()] is
    [(<id-field>, start, end)], the id-field being [gene_id] for Gene,
    [transcript_id] for Transcript and CDS, [exon_id] for Exon and
    [protein_id] for Protein; it holds for all integer coordinates, the
    ordered ones in particular. *)
Theorem load_to_tuple (tobj : pyobj) (t : source_transcript)
  (s e : Z) (b x i : pyval) :
  exposes tobj t ->
  (r <- Gene.load tobj (VInt s) (VInt e) ;; Gene.to_tuple r)
  = Ok (gene_id t, VInt s, VInt e)
  /\ (r <- Transcript.load tobj (VInt s) (VInt e) ;; Transcript.to_tuple r)
     = Ok (transcript_id t, VInt s, VInt e)
  /\ (r <- CDS.load tobj (VInt s) (VInt e) ;; CDS.to_tuple r)
     = Ok (transcript_id t, VInt s, VInt e)
  /\ (r <- Exon.load tobj (VInt s) (VInt e) b x i ;; Exon.to_tuple r)
     = Ok (x, VInt s, VInt e)
  /\ (r <- Protein.load tobj (VInt s) (VInt e) ;; Protein.to_tuple r)
     = Ok (protein_id t, VInt s, VInt e).
Proof.
  intros H. loaded H. repeat split.
Qed.

Lemma load_to_tuple_witness :
  (r <- Gene.load (sample_tobj "ATGCCCTAA") (VInt 4) (VInt 9) ;;
   Gene.to_tuple r)
  = Ok (VStr "ENSG00000141510", VInt 4, VInt 9)
  /\ (r <- Exon.load (sample_tobj "ATGCCCTAA") (VInt 4) (VInt 9)
             (VStr "protein_coding") (VStr "ENSE001") (VInt 2) ;;
      Exon.to_tuple r)
     = Ok (VStr "ENSE001", VInt 4, VInt 9).
Proof.
  pose proof (load_to_tuple (sample_tobj "ATGCCCTAA") (sample "ATGCCCTAA")
                4 9 (VStr "protein_coding") (VStr "ENSE001") (VInt 2)
                (sample_exposes "ATGCCCTAA")) as (Hg & _ & _ & Hx & _).
  split; [exact Hg | exact Hx].
Defined.

(** ** Fields copied from the source transcript *)

(** C7: for every variant, the [strand] and [biotype] fields of the loaded
    record are the source transcript's [strand] and [biotype]; for Exon
    whatever is passed for [biotype], [exon_id] and [index]. *)
Theorem load_copies_strand_biotype (tobj : pyobj) (t : source_transcript)
  (s e : Z) (b x i : pyval) :
  exposes tobj t ->
  (attr_of (CDS.load tobj (VInt s) (VInt e)) "strand" = Ok (strand t)
   /\ attr_of (CDS.load tobj (VInt s) (VInt e)) "biotype" = Ok (biotype t))
  /\ (attr_of (Exon.load tobj (VInt s) (VInt e) b x i) "strand"
      = Ok (strand t)
      /\ attr_of (Exon.load tobj (VInt s) (VInt e) b x i) "biotype"
         = Ok (biotype t))
  /\ (attr_of (Gene.load tobj (VInt s) (VInt e)) "strand" = Ok (strand t)
      /\ attr_of (Gene.load tobj (VInt s) (VInt e)) "biotype"
         = Ok (biotype t))
  /\ (attr_of (Protein.load tobj (VInt s) (VInt e)) "strand" = Ok (strand t)
      /\ attr_of (Protein.load tobj (VInt s) (VInt e)) "biotype"
         = Ok (biotype t))
  /\ (attr_of (Transcript.load tobj (VInt s) (VInt e)) "strand"
      = Ok (strand t)
      /\ attr_of (Transcript.load tobj (VInt s) (VInt e)) "biotype"
         = Ok (biotype t)).
Proof.
  intros H. loaded H. repeat split.
Qed.

Lemma load_copies_strand_biotype_witness :
  attr_of (Gene.load (sample_tobj "ATGCCCTAA") (VInt 1) (VInt 3)) "strand"
  = Ok (VStr "-")
  /\ attr_of (Exon.load (sample_tobj "ATGCCCTAA") (VInt 1) (VInt 3)
                (VStr "retained_intron") (VStr "ENSE001") (VInt 2)) "biotype"
     = Ok (VStr "protein_coding").
Proof.
  pose proof (load_copies_strand_biotype
                (sample_tobj "ATGCCCTAA") (sample "ATGCCCTAA") 1 3
                (VStr "retained_intron") (VStr "ENSE001") (VInt 2)
                (sample_exposes "ATGCCCTAA"))
    as (_ & (_ & Hx) & (Hg & _) & _).
  split; [exact Hg | exact Hx].
Defined.

(** ** Coordinates are stored as passed *)

Lemma str_slice_short (q : string) (s e : Z) :
  Z.of_nat (String.length q) < e -> s <= e ->
  Z.of_nat (String.length (str_slice q (Some (s - 1)) (Some e))) < e - s + 1.
Proof.
  intros H1 H2. rewrite str_slice_length.
  rewrite (adjust_index_beyond _ e) by lia.
  unfold adjust_index. destruct (Z.ltb_spec (s - 1) 0); lia.
Qed.

(** C10: for every variant and all integer coordinates, the loaded record
    holds [start] and [end] exactly as passed and the source transcript's
    [contig]; when [end] is past the end of the source sequence (and
    [start <= end]) that is so although [seq] has fewer than
    [end - start + 1] characters. *)
Theorem load_keeps_coordinates (tobj : pyobj) (t : source_transcript)
  (s e : Z) (b x i : pyval) :
  exposes tobj t ->
  (attr_of (CDS.load tobj (VInt s) (VInt e)) "start" = Ok (VInt s)
   /\ attr_of (CDS.load tobj (VInt s) (VInt e)) "end" = Ok (VInt e)
   /\ attr_of (CDS.load tobj (VInt s) (VInt e)) "contig" = Ok (contig t))
  /\ (attr_of (Exon.load tobj (VInt s) (VInt e) b x i) "start" = Ok (VInt s)
      /\ attr_of (Exon.load tobj (VInt s) (VInt e) b x i) "end" = Ok (VInt e)
      /\ attr_of (Exon.load tobj (VInt s) (VInt e) b x i) "contig"
         = Ok (contig t))
  /\ (attr_of (Gene.load tobj (VInt s) (VInt e)) "start" = Ok (VInt s)
      /\ attr_of (Gene.load tobj (VInt s) (VInt e)) "end" = Ok (VInt e)
      /\ attr_of (Gene.load tobj (VInt s) (VInt e)) "contig" = Ok (contig t))
  /\ (attr_of (Protein.load tobj (VInt s) (VInt e)) "start" = Ok (VInt s)
      /\ attr_of (Protein.load tobj (VInt s) (VInt e)) "end" = Ok (VInt e)
      /\ attr_of (Protein.load tobj (VInt s) (VInt e)) "contig"
         = Ok (contig t))
  /\ (attr_of (Transcript.load tobj (VInt s) (VInt e)) "start" = Ok (VInt s)
      /\ attr_of (Transcript.load tobj (VInt s) (VInt e)) "end" = Ok (VInt e)
      /\ attr_of (Transcript.load tobj (VInt s) (VInt e)) "contig"
         = Ok (contig t))
  /\ (s <= e ->
      (Z.of_nat (String.length (coding_sequence t)) < e ->
       exists q, attr_of (CDS.load tobj (VInt s) (VInt e)) "seq" = Ok (VStr q)
                 /\ Z.of_nat (String.length q) < e - s + 1)
      /\ (Z.of_nat (String.length (sequence t)) < e ->
          (exists q, attr_of (Exon.load tobj (VInt s) (VInt e) b x i) "seq"
                     = Ok (VStr q)
                     /\ Z.of_nat (String.length q) < e - s + 1)
          /\ (exists q, attr_of (Transcript.load tobj (VInt s) (VInt e)) "seq"
                        = Ok (VStr q)
                        /\ Z.of_nat (String.length q) < e - s + 1))
      /\ (Z.of_nat (String.length (protein_sequence t)) < e ->
          exists q, attr_of (Protein.load tobj (VInt s) (VInt e)) "seq"
                    = Ok (VStr q)
                    /\ Z.of_nat (String.length q) < e - s + 1)).
Proof.
  intros H. loaded H.
  repeat match goal with
         | |- _ /\ _ => split
         | |- _ -> _ => intro
         | |- _ = _ => reflexivity
         end;
    (eexists; split; [reflexivity | apply str_slice_short; assumption]).
Qed.

Lemma load_keeps_coordinates_witness :
  attr_of (CDS.load (sample_tobj "ATGCC") (VInt 3) (VInt 10)) "start"
  = Ok (VInt 3)
  /\ attr_of (CDS.load (sample_tobj "ATGCC") (VInt 3) (VInt 10)) "end"
     = Ok (VInt 10)
  /\ attr_of (CDS.load (sample_tobj "ATGCC") (VInt 3) (VInt 10)) "contig"
     = Ok (VStr "17")
  /\ exists q,
      attr_of (CDS.load (sample_tobj "ATGCC") (VInt 3) (VInt 10)) "seq"
      = Ok (VStr q)
      /\ Z.of_nat (String.length q) < 10 - 3 + 1.
Proof.
  pose proof (load_keeps_coordinates
                (sample_tobj "ATGCC") (sample "ATGCC") 3 10
                VNone VNone VNone (sample_exposes "ATGCC"))
    as ((H1 & H2 & H3) & _ & _ & _ & _ & Hshort).
  split; [exact H1 | split; [exact H2 | split; [exact H3 |]]].
  apply Hshort; simpl; lia.
Defined.

(** ** The sequence of a loaded record *)

Lemma substring_whole (q : string) : substring 0 (String.length q) q = q.
Proof.
  induction q as [|c q IH]; simpl; [reflexivity | now rewrite IH].
Qed.

Lemma substring_drop (q : string) :
  forall n : nat, substring n (String.length q - n) q = string_drop n q.
Proof.
  induction q as [|c q IH]; intros [|n]; try reflexivity.
  - apply (substring_whole (String c q)).
  - simpl. apply IH.
Qed.

Lemma string_drop_length (q : string) :
  forall n : nat,
    String.length (string_drop n q) = (String.length q - n)%nat.
Proof.
  induction q as [|c q IH]; intros [|n]; try reflexivity.
  simpl. apply IH.
Qed.

(** The definition that follows the specification is what its words say:
    it has [end - start + 1] characters, and its [k]-th character is the
    [(start + k)]-th of the source (counting [k] from zero, positions from
    one). *)
Lemma inclusive_range_spec (q : string) (s e : Z) :
  1 <= s -> s <= e -> e <= Z.of_nat (String.length q) ->
  Z.of_nat (String.length (inclusive_range q s e)) = e - s + 1
  /\ forall k : nat,
       Z.of_nat k < e - s + 1 ->
       String.get k (inclusive_range q s e)
       = String.get (k + Z.to_nat (s - 1)) q.
Proof.
  intros H1 H2 H3. unfold inclusive_range. split.
  - rewrite substring_length. lia.
  - intros k Hk. apply substring_correct1. lia.
Qed.

(** From a start of at least one, [q[start-1:]] drops [start - 1]
    characters. *)
Lemma str_slice_drop (q : string) (s : Z) :
  1 <= s ->
  str_slice q (Some (s - 1)) None = string_drop (Z.to_nat (s - 1)) q.
Proof.
  intros H. unfold str_slice, adjust_index.
  destruct (Z.ltb_spec (s - 1) 0) as [Hneg|_]; [lia|].
  destruct (Z.le_gt_cases (s - 1) (Z.of_nat (String.length q))) as [Hle|Hgt].
  - rewrite Z.min_l by lia.
    replace (Z.to_nat (Z.of_nat (String.length q) - (s - 1)))
      with (String.length q - Z.to_nat (s - 1))%nat by lia.
    apply substring_drop.
  - rewrite Z.min_r by lia. rewrite Z.sub_diag. simpl Z.to_nat.
    rewrite substring_nothing. symmetry. apply length_zero_empty.
    rewrite string_drop_length. lia.
Qed.

(** C2: for coordinates [1 <= start <= end <= len(source)], the [seq] of
    the loaded record is the 1-based inclusive range of the source
    sequence -- the coding sequence for CDS, the transcript sequence for
    Transcript and Exon, the protein sequence for Protein; with the coding
    sequence ATGCCCTAA, [CDS.load(t, 1, 3).seq] is ATG and
    [CDS.load(t, 4, 9).seq] is CCCTAA. *)
Theorem load_seq_inclusive (tobj : pyobj) (t : source_transcript)
  (s e : Z) (b x i : pyval) :
  exposes tobj t -> 1 <= s -> s <= e ->
  (e <= Z.of_nat (String.length (coding_sequence t)) ->
   attr_of (CDS.load tobj (VInt s) (VInt e)) "seq"
   = Ok (VStr (inclusive_range (coding_sequence t) s e)))
  /\ (e <= Z.of_nat (String.length (sequence t)) ->
      attr_of (Transcript.load tobj (VInt s) (VInt e)) "seq"
      = Ok (VStr (inclusive_range (sequence t) s e))
      /\ attr_of (Exon.load tobj (VInt s) (VInt e) b x i) "seq"
         = Ok (VStr (inclusive_range (sequence t) s e)))
  /\ (e <= Z.of_nat (String.length (protein_sequence t)) ->
      attr_of (Protein.load tobj (VInt s) (VInt e)) "seq"
      = Ok (VStr (inclusive_range (protein_sequence t) s e)))
  /\ (coding_sequence t = "ATGCCCTAA" ->
      attr_of (CDS.load tobj (VInt 1) (VInt 3)) "seq" = Ok (VStr "ATG")
      /\ attr_of (CDS.load tobj (VInt 4) (VInt 9)) "seq"
         = Ok (VStr "CCCTAA")).
Proof.
  intros H H1 H2. loaded H.
  repeat match goal with
         | |- _ /\ _ => split
         | |- _ -> _ => intro
         end;
    try (cbn [getattr __dict__ dict_get String.eqb Ascii.eqb Bool.eqb
              CDS.cls CDS.__init__ Exon.cls Exon.__init__
              Protein.cls Protein.__init__ Transcript.cls Transcript.__init__
              setattr dict_set new];
         do 2 f_equal; apply str_slice_inside; assumption).
  - match goal with Hq : coding_sequence t = _ |- _ => rewrite Hq end.
    reflexivity.
  - match goal with Hq : coding_sequence t = _ |- _ => rewrite Hq end.
    reflexivity.
Qed.

Lemma load_seq_inclusive_witness :
  attr_of (CDS.load (sample_tobj "ATGCCCTAA") (VInt 4) (VInt 9)) "seq"
  = Ok (VStr "CCCTAA")
  /\ attr_of (Transcript.load (sample_tobj "ATGCCCTAA") (VInt 4) (VInt 9))
       "seq"
     = Ok (VStr "ATGCCC").
Proof.
  pose proof (load_seq_inclusive
                (sample_tobj "ATGCCCTAA") (sample "ATGCCCTAA") 4 9
                VNone VNone VNone (sample_exposes "ATGCCCTAA")
                ltac:(lia) ltac:(lia))
    as (Hc & Ht & _ & _).
  split.
  - apply Hc. simpl. lia.
  - apply Ht. simpl. lia.
Defined.

(** ** An end past the source sequence *)

(** C5: when [end] exceeds the length of the source sequence, loading
    succeeds and [seq] is the suffix [source[start-1:]] of the source
    sequence -- for [start >= 1], the source without its first [start - 1]
    characters; with a coding sequence of five characters,
    [CDS.load(t, 3, 10).seq] is its last three. *)
Theorem load_seq_truncated (tobj : pyobj) (t : source_transcript)
  (s e : Z) (b x i : pyval) :
  exposes tobj t ->
  (Z.of_nat (String.length (coding_sequence t)) < e ->
   attr_of (CDS.load tobj (VInt s) (VInt e)) "seq"
   = Ok (VStr (str_slice (coding_sequence t) (Some (s - 1)) None))
   /\ (1 <= s ->
       str_slice (coding_sequence t) (Some (s - 1)) None
       = string_drop (Z.to_nat (s - 1)) (coding_sequence t)))
  /\ (Z.of_nat (String.length (sequence t)) < e ->
      attr_of (Transcript.load tobj (VInt s) (VInt e)) "seq"
      = Ok (VStr (str_slice (sequence t) (Some (s - 1)) None))
      /\ attr_of (Exon.load tobj (VInt s) (VInt e) b x i) "seq"
         = Ok (VStr (str_slice (sequence t) (Some (s - 1)) None))
      /\ (1 <= s ->
          str_slice (sequence t) (Some (s - 1)) None
          = string_drop (Z.to_nat (s - 1)) (sequence t)))
  /\ (Z.of_nat (String.length (protein_sequence t)) < e ->
      attr_of (Protein.load tobj (VInt s) (VInt e)) "seq"
      = Ok (VStr (str_slice (protein_sequence t) (Some (s - 1)) None))
      /\ (1 <= s ->
          str_slice (protein_sequence t) (Some (s - 1)) None
          = string_drop (Z.to_nat (s - 1)) (protein_sequence t)))
  /\ (String.length (coding_sequence t) = 5%nat ->
      attr_of (CDS.load tobj (VInt 3) (VInt 10)) "seq"
      = Ok (VStr (string_drop 2 (coding_sequence t)))
      /\ String.length (string_drop 2 (coding_sequence t)) = 3%nat).
Proof.
  intros H. loaded H.
  repeat match goal with
         | |- _ /\ _ => split
         | |- _ -> _ => intro
         end;
    try (apply str_slice_drop; assumption);
    try (cbn [getattr __dict__ dict_get String.eqb Ascii.eqb Bool.eqb
              CDS.cls CDS.__init__ Exon.cls Exon.__init__
              Protein.cls Protein.__init__ Transcript.cls Transcript.__init__
              setattr dict_set new];
         do 2 f_equal; apply str_slice_beyond; assumption).
  - cbn [getattr __dict__ dict_get String.eqb Ascii.eqb Bool.eqb
         CDS.cls CDS.__init__ setattr dict_set new].
    do 2 f_equal. rewrite str_slice_beyond by lia.
    apply (str_slice_drop (coding_sequence t) 3). lia.
  - rewrite string_drop_length. lia.
Qed.

Lemma load_seq_truncated_witness :
  attr_of (CDS.load (sample_tobj "ATGCC") (VInt 3) (VInt 10)) "seq"
  = Ok (VStr "GCC")
  /\ attr_of (Protein.load (sample_tobj "ATGCC") (VInt 0) (VInt 7)) "seq"
     = Ok (VStr "W").
Proof.
  pose proof (load_seq_truncated
                (sample_tobj "ATGCC") (sample "ATGCC") 3 10
                VNone VNone VNone (sample_exposes "ATGCC"))
    as (_ & _ & _ & Hc).
  pose proof (load_seq_truncated
                (sample_tobj "ATGCC") (sample "ATGCC") 0 7
                VNone VNone VNone (sample_exposes "ATGCC"))
    as (_ & _ & Hp & _).
  split.
  - apply Hc. reflexivity.
  - apply Hp. simpl. lia.
Defined.

(** Every slice [q[lo:]] is a suffix of [q]. *)
Lemma str_slice_is_suffix (q : string) (lo : Z) :
  exists p : string, q = p ++ str_slice q (Some lo) None.
Proof.
  eexists. apply str_slice_suffix.
Qed.

(** ** A start after the end *)

Lemma str_slice_reversed (q : string) (s e : Z) :
  e < s ->
  str_slice q (Some (s - 1)) (Some e) = ""
  <-> ~ reaches_back (Z.of_nat (String.length q)) s e.
Proof.
  intros H. rewrite str_slice_empty_iff.
  unfold reaches_back, adjust_index.
  destruct (Z.ltb_spec e 0); destruct (Z.ltb_spec (s - 1) 0); lia.
Qed.

(** C9 as the source has it: for integer coordinates [start > end] every
    loader succeeds, and the [seq] of a seq-bearing record is empty exactly
    when the coordinates do not reach back, that is unless [start >= 1],
    [end < 0] and [start - 1 < len(source) + end]; so it is empty whenever
    [end >= 0]. *)
Theorem load_reversed (tobj : pyobj) (t : source_transcript)
  (s e : Z) (b x i : pyval) :
  exposes tobj t -> e < s ->
  (exists r, Gene.load tobj (VInt s) (VInt e) = Ok r)
  /\ (exists q, attr_of (CDS.load tobj (VInt s) (VInt e)) "seq" = Ok (VStr q)
                /\ (q = "" <-> ~ reaches_back
                                  (Z.of_nat (String.length (coding_sequence t)))
                                  s e))
  /\ (exists q, attr_of (Exon.load tobj (VInt s) (VInt e) b x i) "seq"
                = Ok (VStr q)
                /\ (q = "" <-> ~ reaches_back
                                  (Z.of_nat (String.length (sequence t))) s e))
  /\ (exists q, attr_of (Transcript.load tobj (VInt s) (VInt e)) "seq"
                = Ok (VStr q)
                /\ (q = "" <-> ~ reaches_back
                                  (Z.of_nat (String.length (sequence t))) s e))
  /\ (exists q, attr_of (Protein.load tobj (VInt s) (VInt e)) "seq"
                = Ok (VStr q)
                /\ (q = "" <-> ~ reaches_back
                                  (Z.of_nat
                                     (String.length (protein_sequence t)))
                                  s e))
  /\ (0 <= e ->
      attr_of (CDS.load tobj (VInt s) (VInt e)) "seq" = Ok (VStr "")
      /\ attr_of (Exon.load tobj (VInt s) (VInt e) b x i) "seq"
         = Ok (VStr "")
      /\ attr_of (Transcript.load tobj (VInt s) (VInt e)) "seq"
         = Ok (VStr "")
      /\ attr_of (Protein.load tobj (VInt s) (VInt e)) "seq"
         = Ok (VStr "")).
Proof.
  intros H Hse. loaded H.
  split; [eexists; reflexivity|].
  repeat match goal with
         | |- _ /\ _ => split
         | |- _ -> _ => intro
         | |- exists _, _ =>
             eexists; split;
             [reflexivity | apply str_slice_reversed; assumption]
         end;
    cbn [getattr __dict__ dict_get String.eqb Ascii.eqb Bool.eqb
         CDS.cls CDS.__init__ Exon.cls Exon.__init__
         Protein.cls Protein.__init__ Transcript.cls Transcript.__init__
         setattr dict_set new];
    do 2 f_equal; apply str_slice_reversed;
    [assumption | unfold reaches_back; lia | assumption
    | unfold reaches_back; lia | assumption | unfold reaches_back; lia
    | assumption | unfold reaches_back; lia ].
Qed.

Lemma load_reversed_witness :
  attr_of (CDS.load (sample_tobj "ATGCCCTAA") (VInt 7) (VInt 2)) "seq"
  = Ok (VStr "")
  /\ attr_of (Protein.load (sample_tobj "ATGCCCTAA") (VInt 1) (VInt 0)) "seq"
     = Ok (VStr "").
Proof.
  pose proof (load_reversed
                (sample_tobj "ATGCCCTAA") (sample "ATGCCCTAA") 7 2
                VNone VNone VNone (sample_exposes "ATGCCCTAA") ltac:(lia))
    as (_ & _ & _ & _ & _ & Hc).
  pose proof (load_reversed
                (sample_tobj "ATGCCCTAA") (sample "ATGCCCTAA") 1 0
                VNone VNone VNone (sample_exposes "ATGCCCTAA") ltac:(lia))
    as (_ & _ & _ & _ & _ & Hp).
  split.
  - apply Hc. lia.
  - apply Hp. lia.
Defined.

(** C9 as written fails: with the coding sequence ATGCCCTAA,
    [CDS.load(t, 2, -1)] has [start > end] and the seven characters
    between the first and the last as its [seq]. *)
Lemma load_reversed_not_always_empty :
  exposes (sample_tobj "ATGCCCTAA") (sample "ATGCCCTAA")
  /\ -1 < 2
  /\ attr_of (CDS.load (sample_tobj "ATGCCCTAA") (VInt 2) (VInt (-1))) "seq"
     = Ok (VStr "TGCCCTA")
  /\ attr_of (CDS.load (sample_tobj "ATGCCCTAA") (VInt 2) (VInt (-1))) "seq"
     <> Ok (VStr "").
Proof.
  split; [apply sample_exposes|].
  split; [lia|].
  split; [reflexivity | discriminate].
Qed.

(** ** The biotype of Exon and CDS records *)

(** The [biotype] argument of [Exon.load] has no influence on what it
    returns. *)
Lemma Exon_load_biotype_unused (tobj : pyobj) (s e b b' x i : pyval) :
  Exon.load tobj s e b x i = Exon.load tobj s e b' x i.
Proof.
  reflexivity.
Qed.

(** C1 at a concrete call: [Exon.load(t, 1, 3, "retained_intron",
    "ENSE001", 2)] on a transcript of biotype protein_coding.  The index
    and the identity tuple are the ones passed; the [biotype] field is the
    transcript's, not the argument. *)
Theorem Exon_load_at_sample :
  attr_of (Exon.load (sample_tobj "ATGCCCTAA") (VInt 1) (VInt 3)
             (VStr "retained_intron") (VStr "ENSE001") (VInt 2)) "index"
  = Ok (VInt 2)
  /\ (r <- Exon.load (sample_tobj "ATGCCCTAA") (VInt 1) (VInt 3)
             (VStr "retained_intron") (VStr "ENSE001") (VInt 2) ;;
      Exon.to_tuple r)
     = Ok (VStr "ENSE001", VInt 1, VInt 3)
  /\ attr_of (Exon.load (sample_tobj "ATGCCCTAA") (VInt 1) (VInt 3)
                (VStr "retained_intron") (VStr "ENSE001") (VInt 2)) "biotype"
     = Ok (VStr "protein_coding")
  /\ attr_of (Exon.load (sample_tobj "ATGCCCTAA") (VInt 1) (VInt 3)
                (VStr "retained_intron") (VStr "ENSE001") (VInt 2)) "biotype"
     <> Ok (VStr "retained_intron").
Proof.
  repeat split. discriminate.
Qed.

(** C8 as the source has it: [CDS.load] takes the source transcript, start
    and end and nothing else -- a further positional argument is a
    [TypeError] -- and the [biotype] of the record is the source
    transcript's. *)
Theorem CDS_load_biotype (tobj : pyobj) (t : source_transcript) (s e : Z) :
  exposes tobj t ->
  attr_of (CDS.load tobj (VInt s) (VInt e)) "biotype" = Ok (biotype t)
  /\ attr_of (call CDS_load tobj [VInt s; VInt e]) "biotype" = Ok (biotype t)
  /\ forall b : pyval,
      exists msg : string,
        call CDS_load tobj [VInt s; VInt e; b] = Raise (TypeError msg).
Proof.
  intros H. cbn [call]. loaded H.
  split; [reflexivity | split; [reflexivity|]].
  intros b. eexists. reflexivity.
Qed.

Lemma CDS_load_biotype_witness :
  attr_of (call CDS_load (sample_tobj "ATGCCCTAA") [VInt 1; VInt 3]) "biotype"
  = Ok (VStr "protein_coding").
Proof.
  pose proof (CDS_load_biotype (sample_tobj "ATGCCCTAA") (sample "ATGCCCTAA")
                1 3 (sample_exposes "ATGCCCTAA")) as (_ & H & _).
  exact H.
Defined.

(** C8 as written fails: a fourth argument meant as the biotype makes the
    call raise, and without it the record has the transcript's biotype. *)
Lemma CDS_load_takes_no_biotype :
  call CDS_load (sample_tobj "ATGCCCTAA")
    [VInt 1; VInt 3; VStr "nonsense_mediated_decay"]
  = Raise (TypeError
             "load() expects 2 positional arguments after the source object but 3 were given")
  /\ attr_of (call CDS_load (sample_tobj "ATGCCCTAA")
                [VInt 1; VInt 3; VStr "nonsense_mediated_decay"]) "biotype"
     <> Ok (VStr "nonsense_mediated_decay")
  /\ attr_of (call CDS_load (sample_tobj "ATGCCCTAA") [VInt 1; VInt 3])
       "biotype"
     = Ok (VStr "protein_coding").
Proof.
  split; [reflexivity | split; [discriminate | reflexivity]].
Qed.

(** ** The factory *)

(** C3: each of the five tags gives its variant's [load]; the five
    references differ, as values and in what they return on one and the
    same call; any other string raises a [TypeError] whose message ends in
    that string; the comparison is exact, so the upper-case tag is
    refused. *)
Theorem get_parse_function_tags :
  (get_parse_function (VStr "cds") = Ok CDS_load
   /\ get_parse_function (VStr "exon") = Ok Exon_load
   /\ get_parse_function (VStr "gene") = Ok Gene_load
   /\ get_parse_function (VStr "protein") = Ok Protein_load
   /\ get_parse_function (VStr "transcript") = Ok Transcript_load)
  /\ (forall (tobj : pyobj) (s e b x i : pyval),
        call CDS_load tobj [s; e] = CDS.load tobj s e
        /\ call Exon_load tobj [s; e; b; x; i] = Exon.load tobj s e b x i
        /\ call Gene_load tobj [s; e] = Gene.load tobj s e
        /\ call Protein_load tobj [s; e] = Protein.load tobj s e
        /\ call Transcript_load tobj [s; e] = Transcript.load tobj s e)
  /\ NoDup [CDS_load; Exon_load; Gene_load; Protein_load; Transcript_load]
  /\ (forall f g : callable,
        call f (sample_tobj "ATGCCCTAA") [VInt 1; VInt 3]
        = call g (sample_tobj "ATGCCCTAA") [VInt 1; VInt 3] ->
        f = g)
  /\ (forall tag : string,
        ~ In tag known_tags ->
        get_parse_function (VStr tag)
        = Raise (TypeError ("Could not get parse function for " ++ tag)))
  /\ get_parse_function (VStr "CDS")
     = Raise (TypeError "Could not get parse function for CDS").
Proof.
  split; [repeat split|].
  split; [intros; repeat split|].
  split.
  { repeat constructor; simpl; intuition discriminate. }
  split.
  { intros f g; destruct f, g; intros H;
      first [reflexivity | discriminate H]. }
  split; [|reflexivity].
  intros tag Hn. unfold get_parse_function, py_eq, py_str.
  repeat match goal with
         | |- context [String.eqb tag ?k] =>
             destruct (String.eqb_spec tag k) as [->|_];
             [exfalso; apply Hn; simpl; tauto|]
         end.
  reflexivity.
Qed.

Lemma get_parse_function_tags_witness :
  get_parse_function (VStr "Exon")
  = Raise (TypeError "Could not get parse function for Exon").
Proof.
  pose proof get_parse_function_tags as (_ & _ & _ & _ & Herr & _).
  apply (Herr "Exon"). simpl. intros H.
  repeat (destruct H as [H|H]; [discriminate H|]). exact H.
Defined.

(** ** The debug string *)

Lemma str_slice_head (q : string) (n : Z) :
  0 <= n <= Z.of_nat (String.length q) ->
  str_slice q None (Some n) = substring 0 (Z.to_nat n) q.
Proof.
  intros H. unfold str_slice. rewrite adjust_index_inside by lia.
  rewrite Z.sub_0_r. reflexivity.
Qed.

(** Running [__repr__] on a freshly constructed record, the length of
    its sequence being on a known side of the limit. *)
Ltac run_repr :=
  unfold FeatureBase.__repr__;
  cbn [CDS.cls CDS.__init__ Exon.cls Exon.__init__ Gene.cls Gene.__init__
       Transcript.cls Transcript.__init__
       setattr new dict_set String.eqb Ascii.eqb Bool.eqb keys map fst
       __dict__ __name__ FeatureBase.rargs_loop FeatureBase.rarg
       dict_item dict_get bind py_len app];
  unfold FeatureBase._seqlim;
  repeat match goal with
         | H : 3 < ?n |- context [?n >? 3] =>
             rewrite (proj2 (Z.gtb_lt n 3) H)
         | H : ?n <= 3 |- context [?n >? 3] =>
             rewrite (Z.gtb_ltb n 3), (proj2 (Z.ltb_ge 3 n) H)
         end;
  cbn [bind py_getslice slice_bound app String.concat];
  try rewrite str_slice_head by lia;
  cbn [py_str]; repeat rewrite append_assoc; reflexivity.

(** C6: the debug string of a CDS, Exon, Transcript or Gene record is the
    class name followed by [field=value] for each field in the order the
    constructor sets them; a [seq] of more than three characters is shown
    as its first three followed by three dots (a shorter one whole), and
    the [seq] attribute of the record is still the whole string. *)
Theorem repr_form
  (c s e sd b ti tn xi ix gi gn : pyval) (q : string) :
  (FeatureBase.__repr__ (CDS.cls c s e sd b ti tn (VStr q))
   = Ok ("CDS(contig=" ++ py_str c ++ ", start=" ++ py_str s
         ++ ", end=" ++ py_str e ++ ", strand=" ++ py_str sd
         ++ ", biotype=" ++ py_str b ++ ", transcript_id=" ++ py_str ti
         ++ ", transcript_name=" ++ py_str tn
         ++ ", seq="
         ++ (if 3 <? Z.of_nat (String.length q)
             then substring 0 3 q ++ "..." else q)
         ++ ")")
   /\ getattr (CDS.cls c s e sd b ti tn (VStr q)) "seq" = Ok (VStr q))
  /\ (FeatureBase.__repr__ (Exon.cls c s e sd b xi ti tn ix (VStr q))
      = Ok ("Exon(contig=" ++ py_str c ++ ", start=" ++ py_str s
            ++ ", end=" ++ py_str e ++ ", strand=" ++ py_str sd
            ++ ", biotype=" ++ py_str b ++ ", exon_id=" ++ py_str xi
            ++ ", transcript_id=" ++ py_str ti
            ++ ", transcript_name=" ++ py_str tn
            ++ ", index=" ++ py_str ix
            ++ ", seq="
            ++ (if 3 <? Z.of_nat (String.length q)
                then substring 0 3 q ++ "..." else q)
            ++ ")")
      /\ getattr (Exon.cls c s e sd b xi ti tn ix (VStr q)) "seq"
         = Ok (VStr q))
  /\ (FeatureBase.__repr__ (Transcript.cls c s e sd b ti tn (VStr q))
      = Ok ("Transcript(contig=" ++ py_str c ++ ", start=" ++ py_str s
            ++ ", end=" ++ py_str e ++ ", strand=" ++ py_str sd
            ++ ", biotype=" ++ py_str b ++ ", transcript_id=" ++ py_str ti
            ++ ", transcript_name=" ++ py_str tn
            ++ ", seq="
            ++ (if 3 <? Z.of_nat (String.length q)
                then substring 0 3 q ++ "..." else q)
            ++ ")")
      /\ getattr (Transcript.cls c s e sd b ti tn (VStr q)) "seq"
         = Ok (VStr q))
  /\ FeatureBase.__repr__ (Gene.cls c s e sd b gi gn)
     = Ok ("Gene(contig=" ++ py_str c ++ ", start=" ++ py_str s
           ++ ", end=" ++ py_str e ++ ", strand=" ++ py_str sd
           ++ ", biotype=" ++ py_str b ++ ", gene_id=" ++ py_str gi
           ++ ", gene_name=" ++ py_str gn ++ ")").
Proof.
  destruct (Z.ltb_spec 3 (Z.of_nat (String.length q))) as [Hlong|Hshort];
    repeat match goal with
           | |- _ /\ _ => split
           | |- getattr _ _ = _ => reflexivity
           end;
    run_repr.
Qed.

(** The same on a loaded record: the string shows three characters of the
    six that the record holds. *)
Example repr_of_loaded_CDS :
  (r <- CDS.load (sample_tobj "ATGCCCTAA") (VInt 4) (VInt 9) ;;
   FeatureBase.__repr__ r)
  = Ok "CDS(contig=17, start=4, end=9, strand=-, biotype=protein_coding, transcript_id=ENST00000269305, transcript_name=TP53-201, seq=CCC...)"
  /\ attr_of (CDS.load (sample_tobj "ATGCCCTAA") (VInt 4) (VInt 9)) "seq"
     = Ok (VStr "CCCTAA").
Proof.
  split; reflexivity.
Qed.

(** * Beyond the interface: any source object, any argument *)

(** ** Reading a call *)

(** Opening a call of a loader, and going through a successful one from
    its first read to the record it builds. *)
Ltac open_call H :=
  cbn [call] in H;
  cbv beta delta [CDS.load Exon.load Gene.load Protein.load Transcript.load]
    in H.

Ltac invert_call H :=
  open_call H;
  repeat match type of H with
         | bind (Ok _) _ = _ => cbn [bind] in H
         | bind (getattr ?o ?k) _ = _ =>
             match goal with
             | E : getattr o k = _ |- _ => rewrite E in H
             end
         | bind (getattr ?o ?k) _ = _ =>
             let E := fresh "E" in
             destruct (getattr o k) eqn:E; cbn [bind] in H;
             [ | discriminate H ]
         | bind (py_sub ?a _) _ = _ =>
             tryif is_var a then destruct a else idtac;
             cbn [bind py_sub] in H; try discriminate H
         | bind (py_getslice ?v _ ?e) _ = _ =>
             tryif is_var v then destruct v else idtac;
             try discriminate H;
             tryif is_var e then destruct e else idtac;
             cbn [bind py_getslice slice_bound] in H;
             try discriminate H
         end;
  injection H as <-.

(** The argument lists that a loader accepts. *)
Ltac by_arity f rest H :=
  destruct f;
  destruct rest as [|?b [|?x [|?i [|]]]];
  try discriminate H.

(** One attribute read at the head of a loader: either it is the first
    missing one, or the loader goes on. *)
Ltac read_attr Hmiss :=
  match goal with
  | |- bind (getattr ?o ?k) _ = _ =>
      let E := fresh "E" in
      unfold getattr at 1;
      destruct (dict_get (__dict__ o) k) eqn:E;
      cbn [bind find] in Hmiss |- *;
      [ | congruence ]
  end.

(** What [first_missing] finds: nothing exactly when every name can be
    read. *)
Lemma first_missing_None (o : pyobj) (names : list string) :
  first_missing o names = None
  <-> forall k, In k names -> exists v, getattr o k = Ok v.
Proof.
  unfold first_missing, getattr. induction names as [|n names IH]; simpl.
  - split; [intros _ k [] | reflexivity].
  - destruct (dict_get (__dict__ o) n) as [v|] eqn:E.
    + rewrite IH. split.
      * intros H k [<-|Hk]; [rewrite E; eauto | apply H, Hk].
      * intros H k Hk. apply H. right. exact Hk.
    + split; [discriminate|].
      intros H. destruct (H n (or_introl eq_refl)) as (v & Hv).
      rewrite E in Hv. discriminate Hv.
Qed.

(** ** Errors of a loader *)

(** X1: a loader called with the right number of arguments on an object
    that lacks one of the attributes it reads raises [AttributeError] for
    the first such attribute in reading order, whatever the arguments are
    (a start that is no integer is not looked at before). *)
Theorem load_missing_attribute (f : callable) (tobj : pyobj)
  (args : list pyval) (a : string) :
  List.length args = arity f ->
  first_missing tobj (reads f) = Some a ->
  call f tobj args = Raise (AttributeError a).
Proof.
  intros Hlen Hmiss.
  destruct f;
    (destruct args as [|s [|e [|b [|x [|i [|]]]]]]; try discriminate Hlen);
    cbn [call]; 
    cbv beta delta [CDS.load Exon.load Gene.load Protein.load Transcript.load];
    unfold first_missing, reads in Hmiss; cbn [find] in Hmiss;
    repeat read_attr Hmiss; discriminate Hmiss.
Qed.

Lemma load_missing_attribute_witness :
  call CDS_load bare_tobj [VStr "one"; VInt 3]
  = Raise (AttributeError "coding_sequence")
  /\ call Gene_load bare_tobj [VInt 1; VInt 3]
     = Raise (AttributeError "gene_id").
Proof.
  split.
  - apply load_missing_attribute; reflexivity.
  - apply load_missing_attribute; reflexivity.
Defined.








(** ** The record of a successful call *)

(** X5: whenever a loader succeeds -- on any object, with any values for
    start and end -- the record holds start and end as passed and the
    object's own [contig], [strand] and [biotype]. *)
Theorem load_stores_arguments (f : callable) (tobj : pyobj)
  (s e : pyval) (rest : list pyval) (r : pyobj) :
  call f tobj (s :: e :: rest) = Ok r ->
  getattr r "start" = Ok s
  /\ getattr r "end" = Ok e
  /\ getattr r "contig" = getattr tobj "contig"
  /\ getattr r "strand" = getattr tobj "strand"
  /\ getattr r "biotype" = getattr tobj "biotype".
Proof.
  intros H. by_arity f rest H; invert_call H; repeat split.
Qed.

Lemma load_stores_arguments_witness :
  attr_of (call Gene_load (sample_tobj "ATGCC") [VNone; VStr "q-arm"]) "end"
  = Ok (VStr "q-arm").
Proof.
  pose proof (load_stores_arguments Gene_load (sample_tobj "ATGCC")
                VNone (VStr "q-arm") [] _ eq_refl) as (_ & H & _).
  exact H.
Defined.

(** X6: the record a loader returns is an instance of the loader's class
    and has exactly the attributes the constructor sets, in that order. *)
Theorem load_record_shape (f : callable) (tobj : pyobj)
  (args : list pyval) (r : pyobj) :
  call f tobj args = Ok r ->
  __name__ r = class_of f /\ keys (__dict__ r) = fields f.
Proof.
  intros H.
  destruct args as [|s [|e rest]];
    [destruct f; discriminate H | destruct f; discriminate H |].
  by_arity f rest H; invert_call H; split; reflexivity.
Qed.

Lemma load_record_shape_witness :
  keys (__dict__ (Protein.cls (VStr "17") (VInt 1) (VInt 2) (VStr "-")
                    (VStr "protein_coding") (VStr "ENSP00000269305")
                    (VStr "MP")))
  = ["contig"; "start"; "end"; "strand"; "biotype"; "protein_id"; "seq"].
Proof.
  pose proof (load_record_shape Protein_load (sample_tobj "ATGCC")
                [VInt 1; VInt 2] _ eq_refl) as (_ & H).
  exact H.
Defined.

(** ** The sequence, for coordinates that are not negative *)

(** The [seq] of a record is the slice of the attribute its loader
    slices. *)
Lemma call_seq (f : callable) (tobj : pyobj) (s : Z) (e : pyval)
  (rest : list pyval) (r : pyobj) (k q : string) :
  call f tobj (VInt s :: e :: rest) = Ok r ->
  sliced f = Some k ->
  getattr tobj k = Ok (VStr q) ->
  exists hi, slice_bound e = Ok hi
             /\ getattr r "seq" = Ok (VStr (str_slice q (Some (s - 1)) hi)).
Proof.
  intros H Hk Hq.
  by_arity f rest H; try discriminate Hk; injection Hk as <-;
    invert_call H; eexists; split; reflexivity.
Qed.

(** X7: for a start of at least one and an end that is not negative, the
    [seq] of the record has [max(0, min(end, len(source)) - (start - 1))]
    characters. *)
Theorem load_seq_length (f : callable) (tobj : pyobj) (s e : Z)
  (rest : list pyval) (r : pyobj) (k q : string) :
  call f tobj (VInt s :: VInt e :: rest) = Ok r ->
  sliced f = Some k ->
  getattr tobj k = Ok (VStr q) ->
  1 <= s -> 0 <= e ->
  exists w, getattr r "seq" = Ok (VStr w)
            /\ Z.of_nat (String.length w)
               = Z.max 0 (Z.min e (Z.of_nat (String.length q)) - (s - 1)).
Proof.
  intros H Hk Hq Hs He.
  destruct (call_seq _ _ _ _ _ _ _ _ H Hk Hq) as (hi & Hhi & Hseq).
  injection Hhi as <-.
  eexists. split; [exact Hseq|].
  rewrite str_slice_length. unfold adjust_index.
  destruct (Z.ltb_spec e 0); destruct (Z.ltb_spec (s - 1) 0); lia.
Qed.

Lemma load_seq_length_witness :
  exists w,
    getattr (CDS.cls (VStr "17") (VInt 3) (VInt 10) (VStr "-")
               (VStr "protein_coding") (VStr "ENST00000269305")
               (VStr "TP53-201") (VStr "GCC")) "seq"
    = Ok (VStr w)
    /\ Z.of_nat (String.length w) = 3.
Proof.
  apply (load_seq_length CDS_load (sample_tobj "ATGCC") 3 10 []
           _ "coding_sequence" "ATGCC" eq_refl eq_refl eq_refl);
    lia.
Defined.

(** X8: with start one and an end at or past the end of the source, [seq]
    is the whole source sequence. *)
Theorem load_whole_sequence (f : callable) (tobj : pyobj) (e : Z)
  (rest : list pyval) (r : pyobj) (k q : string) :
  call f tobj (VInt 1 :: VInt e :: rest) = Ok r ->
  sliced f = Some k ->
  getattr tobj k = Ok (VStr q) ->
  Z.of_nat (String.length q) <= e ->
  getattr r "seq" = Ok (VStr q).
Proof.
  intros H Hk Hq He.
  destruct (call_seq _ _ _ _ _ _ _ _ H Hk Hq) as (hi & Hhi & Hseq).
  injection Hhi as <-. rewrite Hseq. do 2 f_equal.
  unfold str_slice. rewrite (adjust_index_inside _ (1 - 1)) by lia.
  destruct (Z.eq_dec e (Z.of_nat (String.length q))) as [->|Hne].
  - rewrite adjust_index_inside by lia.
    replace (Z.to_nat (Z.of_nat (String.length q) - (1 - 1)))
      with (String.length q) by lia.
    apply substring_whole.
  - rewrite adjust_index_beyond by lia.
    replace (Z.to_nat (Z.of_nat (String.length q) - (1 - 1)))
      with (String.length q) by lia.
    apply substring_whole.
Qed.

Lemma load_whole_sequence_witness :
  getattr (Protein.cls (VStr "17") (VInt 1) (VInt 4) (VStr "-")
             (VStr "protein_coding") (VStr "ENSP00000269305")
             (VStr "MPQW")) "seq"
  = Ok (VStr "MPQW").
Proof.
  apply (load_whole_sequence Protein_load (sample_tobj "ATGCC") 4 []
           _ "protein_sequence" "MPQW" eq_refl eq_refl eq_refl).
  simpl. lia.
Defined.

Lemma substring_app (q : string) :
  forall n a b : nat,
    substring n a q ++ substring (n + a) b q = substring n (a + b) q.
Proof.
  induction q as [|c q IH]; intros n a b.
  - destruct n, a, b; reflexivity.
  - destruct n as [|n].
    + destruct a as [|a]; [reflexivity|].
      simpl. f_equal. apply (IH 0%nat).
    + simpl. apply IH.
Qed.

(** Two slices that meet make one. *)
Lemma str_slice_app (q : string) (lo mid hi : Z) :
  0 <= lo -> lo <= mid -> mid <= hi ->
  str_slice q (Some lo) (Some mid) ++ str_slice q (Some mid) (Some hi)
  = str_slice q (Some lo) (Some hi).
Proof.
  intros H0 H1 H2. unfold str_slice, adjust_index.
  destruct (Z.ltb_spec lo 0); [lia|].
  destruct (Z.ltb_spec mid 0); [lia|].
  destruct (Z.ltb_spec hi 0); [lia|].
  set (len := Z.of_nat (String.length q)).
  assert (0 <= len) by (unfold len; lia).
  replace (Z.to_nat (Z.min mid len))
    with (Z.to_nat (Z.min lo len) + Z.to_nat (Z.min mid len - Z.min lo len))%nat
    at 1 by lia.
  rewrite substring_app. f_equal. lia.
Qed.

(** X9: the sequences of two adjoining ranges [[start, mid]] and
    [[mid + 1, end]] (start at least one) concatenate to the sequence of
    [[start, end]], however the ranges lie against the end of the
    source. *)
Theorem load_seq_adjacent (f : callable) (tobj : pyobj) (s m e : Z)
  (rest : list pyval) (w1 w2 : string) :
  attr_of (call f tobj (VInt s :: VInt m :: rest)) "seq" = Ok (VStr w1) ->
  attr_of (call f tobj (VInt (m + 1) :: VInt e :: rest)) "seq"
  = Ok (VStr w2) ->
  1 <= s -> s - 1 <= m -> m <= e ->
  attr_of (call f tobj (VInt s :: VInt e :: rest)) "seq"
  = Ok (VStr (w1 ++ w2)).
Proof.
  intros H1 H2 Hs Hm He. unfold attr_of in *.
  destruct (call f tobj (VInt s :: VInt m :: rest)) as [r1|] eqn:C1;
    [|discriminate H1].
  destruct (call f tobj (VInt (m + 1) :: VInt e :: rest)) as [r2|] eqn:C2;
    [|discriminate H2].
  cbn [bind] in H1, H2.
  by_arity f rest C1; invert_call C1; invert_call C2; try discriminate H1;
    cbn [call];
    cbv beta delta [CDS.load Exon.load Protein.load Transcript.load];
    repeat match goal with
           | E : getattr ?o ?k = _ |- context [getattr ?o ?k] => rewrite E
           end;
    cbn in H1, H2 |- *;
    injection H1 as <-; injection H2 as <-;
    do 2 f_equal; replace (m + 1 - 1) with m by lia;
    symmetry; apply str_slice_app; lia.
Qed.

Lemma load_seq_adjacent_witness :
  attr_of (call CDS_load (sample_tobj "ATGCCCTAA") [VInt 1; VInt 9]) "seq"
  = Ok (VStr ("ATG" ++ "CCCTAA")).
Proof.
  apply (load_seq_adjacent CDS_load (sample_tobj "ATGCCCTAA") 1 3 9 []
           "ATG" "CCCTAA" eq_refl eq_refl); lia.
Defined.

(** ** Coordinates off the 1-based scale *)

Lemma adjust_index_negative (len i : Z) :
  i < 0 -> adjust_index len i = Z.max (i + len) 0.
Proof.
  intros H. unfold adjust_index. destruct (Z.ltb_spec i 0); [reflexivity | lia].
Qed.

(** X10: a start of zero does not read from the beginning: the lower
    bound of the slice is then [-1], and [seq] is empty for an end inside
    the source and the last character of the source otherwise. *)
Theorem load_start_zero (f : callable) (tobj : pyobj) (e : Z)
  (rest : list pyval) (r : pyobj) (k q : string) :
  call f tobj (VInt 0 :: VInt e :: rest) = Ok r ->
  sliced f = Some k ->
  getattr tobj k = Ok (VStr q) ->
  0 <= e ->
  getattr r "seq"
  = Ok (VStr (if e <? Z.of_nat (String.length q)
              then ""
              else string_drop (String.length q - 1) q)).
Proof.
  intros H Hk Hq He.
  destruct (call_seq _ _ _ _ _ _ _ _ H Hk Hq) as (hi & Hhi & Hseq).
  injection Hhi as <-. rewrite Hseq. do 2 f_equal.
  pose proof (adjust_index_negative (Z.of_nat (String.length q)) (0 - 1)
                ltac:(lia)) as Hlo.
  pose proof (adjust_index_range (Z.of_nat (String.length q)) e
                ltac:(lia)) as Hhi.
  destruct (Z.ltb_spec e (Z.of_nat (String.length q))) as [Hlt|Hge].
  - apply str_slice_empty_iff. rewrite Hlo.
    rewrite adjust_index_inside by lia. lia.
  - rewrite <- substring_drop. unfold str_slice. rewrite Hlo.
    destruct (Z.eq_dec e (Z.of_nat (String.length q))) as [->|Hne].
    + rewrite adjust_index_inside by lia. f_equal; lia.
    + rewrite adjust_index_beyond by lia. f_equal; lia.
Qed.

Lemma load_start_zero_witness :
  getattr (CDS.cls (VStr "17") (VInt 0) (VInt 3) (VStr "-")
             (VStr "protein_coding") (VStr "ENST00000269305")
             (VStr "TP53-201") (VStr "")) "seq"
  = Ok (VStr "").
Proof.
  apply (load_start_zero CDS_load (sample_tobj "ATGCC") 3 []
           _ "coding_sequence" "ATGCC" eq_refl eq_refl eq_refl).
  lia.
Defined.



(** ** Exon and Transcript *)

(** X12: on every attribute a Transcript record has, [Exon.load] gives
    what [Transcript.load] gives for the same object, start and end -- the
    same value or the same exception; in particular an Exon's [seq] is cut
    from the transcript sequence. *)
Theorem Exon_extends_Transcript (tobj : pyobj) (s e b x i : pyval)
  (name : string) :
  In name (fields Transcript_load) ->
  attr_of (Exon.load tobj s e b x i) name
  = attr_of (Transcript.load tobj s e) name.
Proof.
  intros Hin. unfold attr_of, Exon.load, Transcript.load.
  repeat match goal with
         | |- context [bind (getattr ?o ?k) _] =>
             destruct (getattr o k); cbn [bind]; [ | reflexivity ]
         end.
  destruct (py_sub s (VInt 1)); cbn [bind]; [ | reflexivity ].
  match goal with
  | |- context [py_getslice ?v ?l ?h] =>
      destruct (py_getslice v l h); cbn [bind]; [ | reflexivity ]
  end.
  simpl in Hin.
  repeat (destruct Hin as [<-|Hin]; [reflexivity|]). destruct Hin.
Qed.

Lemma Exon_extends_Transcript_witness :
  attr_of (Exon.load (sample_tobj "ATGCC") (VInt 2) (VInt 5)
             (VStr "protein_coding") (VStr "ENSE001") (VInt 1)) "seq"
  = attr_of (Transcript.load (sample_tobj "ATGCC") (VInt 2) (VInt 5)) "seq".
Proof.
  apply Exon_extends_Transcript. simpl. tauto.
Defined.

(** ** The factory on any value *)

(** X13: on any value, [get_parse_function] either returns a loader, and
    then the value is one of the five tag strings, or raises the
    [TypeError] whose message ends in [str] of the value, and then the
    value is none of the five; [None] and integers are refused like
    unknown strings. *)
Theorem get_parse_function_cases (v : pyval) :
  (exists f, get_parse_function v = Ok f
             /\ exists tag, In tag known_tags /\ v = VStr tag)
  \/ (get_parse_function v
      = Raise (TypeError ("Could not get parse function for " ++ py_str v))
      /\ forall tag, In tag known_tags -> v <> VStr tag).
Proof.
  unfold get_parse_function.
  destruct v as [|z|tag]; cbn [py_eq];
    try (right; split; [reflexivity | intros t _; discriminate]).
  repeat match goal with
         | |- context [String.eqb tag ?k] =>
             destruct (String.eqb_spec tag k) as [->|?];
             [ left; eexists; split; [reflexivity|];
               eexists; split; [|reflexivity]; simpl; tauto | ]
         end.
  right. split; [reflexivity|].
  intros t Ht [= <-]. simpl in Ht.
  repeat (destruct Ht as [Ht|Ht]; [congruence|]). exact Ht.
Qed.

(** X14: called as [f(tobj, start, end)] on a source transcript, the
    loader the factory returns for a tag succeeds for every tag but exon,
    whose loader wants three more arguments. *)
Theorem two_argument_call (tag : string) (f : callable) (tobj : pyobj)
  (t : source_transcript) (s e : Z) :
  exposes tobj t ->
  get_parse_function (VStr tag) = Ok f ->
  (exists r, call f tobj [VInt s; VInt e] = Ok r) <-> tag <> "exon".
Proof.
  intros Ht Hf. unfold get_parse_function in Hf. cbn [py_eq] in Hf.
  repeat match type of Hf with
         | context [String.eqb tag ?k] =>
             destruct (String.eqb_spec tag k) as [->|?];
             [ injection Hf as <- | ]
         end; try discriminate Hf; cbn [call].
  - loaded Ht. split; [discriminate | eexists; reflexivity].
  - split; [intros (r & Hr); discriminate Hr | congruence].
  - loaded Ht. split; [discriminate | eexists; reflexivity].
  - loaded Ht. split; [discriminate | eexists; reflexivity].
  - loaded Ht. split; [discriminate | eexists; reflexivity].
Qed.

Lemma two_argument_call_witness :
  exists r, call Gene_load (sample_tobj "ATGCC") [VInt 1; VInt 3] = Ok r.
Proof.
  apply (two_argument_call "gene" Gene_load (sample_tobj "ATGCC")
           (sample "ATGCC") 1 3 (sample_exposes "ATGCC") eq_refl).
  discriminate.
Defined.

(** ** The debug string of any instance *)

Lemma dict_get_key (d : list (string * pyval)) (k : string) :
  In k (keys d) -> exists v, dict_get d k = Some v.
Proof.
  induction d as [|[k' v'] d IH]; simpl; [intros [] |].
  intros [->|Hin].
  - rewrite String.eqb_refl. eauto.
  - destruct (String.eqb k' k); [eauto | apply IH, Hin].
Qed.


(** What one turn of the loop appends. *)
Lemma rarg_shown (o : pyobj) (k : string) (v : pyval) :
  dict_get (__dict__ o) k = Some v ->
  (k = "seq" -> exists q, v = VStr q) ->
  FeatureBase.rarg o k = Ok (shown k v).
Proof.
  intros Hget Hseq. unfold FeatureBase.rarg, dict_item, shown.
  rewrite Hget. destruct (String.eqb_spec k "seq") as [Heq|_].
  - destruct (Hseq Heq) as (q & ->). cbn [bind py_len].
    unfold FeatureBase._seqlim. rewrite Z.gtb_ltb.
    destruct (Z.ltb_spec 3 (Z.of_nat (String.length q))) as [Hlong|_].
    + cbn [bind py_getslice slice_bound]. rewrite str_slice_head by lia.
      reflexivity.
    + reflexivity.
  - reflexivity.
Qed.

Lemma rargs_loop_shown (o : pyobj) :
  forall (l : list (string * pyval)) (acc : list string),
    (forall k v, In (k, v) l ->
                 dict_get (__dict__ o) k = Some v
                 /\ (k = "seq" -> exists q, v = VStr q)) ->
    FeatureBase.rargs_loop o (keys l) acc
    = Ok (acc ++ map (fun kv => shown (fst kv) (snd kv)) l)%list.
Proof.
  induction l as [|[k v] l IH]; intros acc H; simpl.
  - rewrite app_nil_r. reflexivity.
  - destruct (H k v (or_introl eq_refl)) as (Hget & Hseq).
    rewrite (rarg_shown o k v Hget Hseq). cbn [bind].
    rewrite IH by (intros; apply H; right; assumption).
    rewrite <- app_assoc. reflexivity.
Qed.

Lemma rargs_loop_fails (o : pyobj) (v : pyval) :
  dict_get (__dict__ o) "seq" = Some v ->
  (forall q, v <> VStr q) ->
  forall (ks : list string) (acc : list string),
    (forall k, In k ks -> In k (keys (__dict__ o))) ->
    In "seq" ks ->
    FeatureBase.rargs_loop o ks acc
    = Raise (TypeError ("object of type '" ++ type_name v
                        ++ "' has no len()")).
Proof.
  intros Hget Hns. induction ks as [|k ks IH]; intros acc Hsub Hin.
  - destruct Hin.
  - simpl. destruct (String.eqb_spec k "seq") as [->|Hne].
    + unfold FeatureBase.rarg, dict_item. rewrite Hget. simpl.
      destruct v; try reflexivity. exfalso. eapply Hns. reflexivity.
    + destruct (dict_get_key _ k (Hsub k (or_introl eq_refl))) as (w & Hw).
      rewrite (rarg_shown o k w Hw) by (intros; contradiction).
      cbn [bind]. apply IH.
      * intros k' Hk'. apply Hsub. right. exact Hk'.
      * destruct Hin as [Heq|Hin]; [congruence | exact Hin].
Qed.



(** X16: an instance whose [seq] is not a string has no debug string:
    [__repr__] raises the [TypeError] of [len]. *)
Theorem repr_seq_not_string (o : pyobj) (v : pyval) :
  getattr o "seq" = Ok v ->
  (forall q, v <> VStr q) ->
  FeatureBase.__repr__ o
  = Raise (TypeError ("object of type '" ++ type_name v ++ "' has no len()")).
Proof.
  intros Hget Hns. unfold getattr in Hget.
  destruct (dict_get (__dict__ o) "seq") as [w|] eqn:E; [|discriminate Hget].
  injection Hget as ->. unfold FeatureBase.__repr__.
  rewrite (rargs_loop_fails o v E Hns); [reflexivity | auto |].
  clear Hns. revert E. generalize (__dict__ o). intros d.
  induction d as [|[k' v'] d IH]; simpl; [discriminate|].
  destruct (String.eqb_spec k' "seq"); [auto | intros; right; auto].
Qed.

Lemma repr_seq_not_string_witness :
  FeatureBase.__repr__
    (Transcript.cls (VStr "1") (VInt 1) (VInt 3) (VStr "+") (VStr "lncRNA")
       (VStr "ENST00000456328") (VStr "DDX11L1-202") VNone)
  = Raise (TypeError "object of type 'NoneType' has no len()").
Proof.
  apply (repr_seq_not_string _ VNone); [reflexivity|].
  intros q. discriminate.
Defined.

(** X17: the record of any successful call of the CDS, Exon, Gene or
    Transcript loader has a debug string, which begins with the name of
    its class. *)
Theorem loaded_repr_succeeds (f : callable) (tobj : pyobj)
  (args : list pyval) (r : pyobj) :
  call f tobj args = Ok r ->
  f <> Protein_load ->
  exists text,
    FeatureBase.__repr__ r = Ok (class_of f ++ "(" ++ text ++ ")").
Proof.
  intros H Hf.
  destruct args as [|s [|e rest]];
    [destruct f; discriminate H | destruct f; discriminate H |].
  by_arity f rest H; try congruence; invert_call H; eexists;
    unfold FeatureBase.__repr__;
    (rewrite rargs_loop_shown;
     [ reflexivity
     | intros k v Hin; simpl in Hin;
       repeat (destruct Hin as [Hin|Hin];
               [ injection Hin as <- <-;
                 split; [reflexivity|];
                 first [ discriminate | intros _; eexists; reflexivity ] | ]);
       destruct Hin ]).
Qed.

Lemma loaded_repr_succeeds_witness :
  exists text,
    FeatureBase.__repr__
      (Gene.cls (VStr "17") (VInt 1) (VInt 3) (VStr "-")
         (VStr "protein_coding") (VStr "ENSG00000141510") (VStr "TP53"))
    = Ok ("Gene" ++ "(" ++ text ++ ")").
Proof.
  apply (loaded_repr_succeeds Gene_load (sample_tobj "ATGCC")
           [VInt 1; VInt 3] _ eq_refl).
  discriminate.
Defined.
